(** * Maybe and Result: two small monadic containers

    A shallow embedding of the TypeScript classes [Just]/[Nothing]
    (interface [Maybe]), [Ok]/[Err] (interface [Result]), of the helpers
    [fromNullable], [matchResult] and [safeHead], and of their callers
    [unsafeHeadSquare] and [findLanguage].

    Conventions of the embedding.
    - A class with one field is the constructor of an inductive type; the
      interface is the inductive type; a call through the interface
      ([m.map(fn)]) is a dispatch on the constructor to the method of the
      class ([Just_map], [Nothing_map]).
    - Objects are immutable and are never compared by reference, so an
      object is the value of its field and [this] is the receiver's value.
    - A caller-supplied function is JavaScript code: it may change the world
      and it may throw.  Every method that receives such a function is a
      computation in the monad [M] below; the methods that receive none
      ([isJust], [isOk], [getOrElse], [of]) are plain functions. *)

From Stdlib Require Import ZArith List String Bool.
Import ListNotations.

Set Implicit Arguments.

(** ** Effects of caller-supplied functions *)

Module Eff.

(** How a call ends: with a value, or with a thrown exception. *)
Inductive Completion (Exn A : Type) : Type :=
| Normal (a : A)
| Throw (e : Exn).
Arguments Normal {Exn A} a.
Arguments Throw {Exn A} e.

(** A computation reads the world and leaves a completion and a world. *)
Definition M (World Exn A : Type) : Type :=
  World -> Completion Exn A * World.

Section Ops.
Context {World Exn : Type}.

Definition ret {A} (a : A) : M World Exn A :=
  fun w => (Normal a, w).

Definition bind {A B} (c : M World Exn A) (k : A -> M World Exn B)
  : M World Exn B :=
  fun w =>
    match c w with
    | (Normal a, w') => k a w'
    | (Throw e, w') => (Throw e, w')
    end.

Definition throw {A} (e : Exn) : M World Exn A :=
  fun w => (Throw e, w).

(** A function without effects, seen as a callback. *)
Definition pure {A B} (f : A -> B) : A -> M World Exn B :=
  fun x => ret (f x).
End Ops.

(** A spy: behaves as [f] and appends ([name], argument) to a journal of
    calls, the world of the computation. *)
Definition spy {Exn A B} (name : string) (f : A -> B)
  : A -> M (list (string * A)) Exn B :=
  fun x journal => (Normal (f x), journal ++ [(name, x)]).

(** A counting stub for a function without parameters. *)
Definition counting {Exn B} (b : B) : unit -> M nat Exn B :=
  fun _ n => (Normal b, S n).

End Eff.

Import Eff.

Declare Scope eff_scope.
Delimit Scope eff_scope with eff.
Notation "x <- c ;; k" := (bind c (fun x => k))
  (at level 61, c at next level, right associativity) : eff_scope.
Local Open Scope eff_scope.

(** ** The Maybe monad *)

Module Maybe.

(** [interface Maybe<A>], implemented by [class Just<A>] (one private
    field [value]) and [class Nothing<A>] (no field). *)
Inductive Maybe (A : Type) : Type :=
| Just (value : A)
| Nothing.
Arguments Just {A} value.
Arguments Nothing {A}.

(** A value of static type [T | null]; at run time an absent array
    element or property is [undefined]. *)
Inductive Nullable (T : Type) : Type :=
| JsNull
| JsUndefined
| NonNull (v : T).
Arguments JsNull {T}.
Arguments JsUndefined {T}.
Arguments NonNull {T} v.

(** [value === null] and [value === undefined]: strict equality, no
    coercion. *)
Definition strict_eq_null {T} (value : Nullable T) : bool :=
  match value with JsNull => true | _ => false end.

Definition strict_eq_undefined {T} (value : Nullable T) : bool :=
  match value with JsUndefined => true | _ => false end.

Section Methods.
Context {World Exn : Type}.
Local Abbreviation M := (Eff.M World Exn).

(** *** class Just *)

Definition Just_isJust {A} (value : A) : bool := true.

Definition Just_of {A} (value : A) : Maybe A := Just value.

Definition Just_flatMap {A B} (value : A) (fn : A -> M (Maybe B))
  : M (Maybe B) :=
  fn value.

Definition Just_map {A B} (value : A) (fn : A -> M B) : M (Maybe B) :=
  b <- fn value ;; ret (Just_of b).

Definition Just_orElse {A} (value : A) (handler : unit -> M (Maybe A))
  : M (Maybe A) :=
  let this := Just value in ret this.

Definition Just_getOrElse {A} (value : A) (fallback : A) : A := value.

(** *** class Nothing *)

Definition Nothing_isJust : bool := false.

Definition Nothing_of {A} : Maybe A := Nothing.

Definition Nothing_flatMap {A B} (fn : A -> M (Maybe B)) : M (Maybe B) :=
  ret Nothing.

Definition Nothing_map {A B} (fn : A -> M B) : M (Maybe B) :=
  ret Nothing.

Definition Nothing_orElse {A} (handler : unit -> M (Maybe A))
  : M (Maybe A) :=
  handler tt.

Definition Nothing_getOrElse {A} (fallback : A) : A := fallback.

(** *** calls through the interface *)

Definition isJust {A} (m : Maybe A) : bool :=
  match m with
  | Just value => Just_isJust value
  | Nothing => Nothing_isJust
  end.

Definition map {A B} (m : Maybe A) (fn : A -> M B) : M (Maybe B) :=
  match m with
  | Just value => Just_map value fn
  | Nothing => Nothing_map fn
  end.

Definition flatMap {A B} (m : Maybe A) (fn : A -> M (Maybe B))
  : M (Maybe B) :=
  match m with
  | Just value => Just_flatMap value fn
  | Nothing => Nothing_flatMap fn
  end.

Definition orElse {A} (m : Maybe A) (handler : unit -> M (Maybe A))
  : M (Maybe A) :=
  match m with
  | Just value => Just_orElse value handler
  | Nothing => Nothing_orElse handler
  end.

Definition getOrElse {A} (m : Maybe A) (fallback : A) : A :=
  match m with
  | Just value => Just_getOrElse value fallback
  | Nothing => Nothing_getOrElse fallback
  end.
End Methods.

(** [fromNullable]: the container holds [value] as it was received, so its
    content has the run-time type [T | null | undefined]. *)
Definition fromNullable {T} (value : Nullable T) : Maybe (Nullable T) :=
  if strict_eq_null value || strict_eq_undefined value
  then Just_of value
  else Nothing_of.

End Maybe.

(** ** The Result monad *)

Module Result.

(** [interface Result<TOk, TErr>], implemented by [class Ok] and
    [class Err]; each has one read-only field named [value]. *)
Inductive Result (TOk TErr : Type) : Type :=
| Ok (value : TOk)
| Err (value : TErr).
Arguments Ok {TOk TErr} value.
Arguments Err {TOk TErr} value.

Section Methods.
Context {World Exn : Type}.
Local Abbreviation M := (Eff.M World Exn).

(** *** class Ok *)

Definition Ok_isOk {TOk} (value : TOk) : bool := true.

Definition Ok_of {TOk TErr} (value : TOk) : Result TOk TErr := Ok value.

Definition Ok_map {TOk TErr UOk} (value : TOk) (fn : TOk -> M UOk)
  : M (Result UOk TErr) :=
  u <- fn value ;; ret (Ok_of u).

Definition Ok_flatMap {TOk TErr UOk} (value : TOk)
  (fn : TOk -> M (Result UOk TErr)) : M (Result UOk TErr) :=
  fn value.

Definition Ok_orElse {TOk TErr} (value : TOk)
  (fn : TErr -> M (Result TOk TErr)) : M (Result TOk TErr) :=
  let this := Ok value in ret this.

Definition Ok_getOrElse {TOk} (value : TOk) (fallback : TOk) : TOk := value.

(** *** class Err *)

Definition Err_isOk {TErr} (value : TErr) : bool := true.

Definition Err_of {UOk UErr} (value : UErr) : Result UOk UErr := Err value.

Definition Err_map {TOk TErr UOk} (value : TErr) (fn : TOk -> M UOk)
  : M (Result UOk TErr) :=
  ret (Err value).

Definition Err_flatMap {TOk TErr UOk} (value : TErr)
  (fn : TOk -> M (Result UOk TErr)) : M (Result UOk TErr) :=
  ret (Err value).

Definition Err_orElse {TOk TErr} (value : TErr)
  (fn : TErr -> M (Result TOk TErr)) : M (Result TOk TErr) :=
  fn value.

Definition Err_getOrElse {TOk TErr} (value : TErr) (fallback : TOk) : TOk :=
  fallback.

(** *** calls through the interface *)

Definition isOk {TOk TErr} (result : Result TOk TErr) : bool :=
  match result with
  | Ok value => Ok_isOk value
  | Err value => Err_isOk value
  end.

Definition map {TOk TErr UOk} (result : Result TOk TErr) (fn : TOk -> M UOk)
  : M (Result UOk TErr) :=
  match result with
  | Ok value => Ok_map value fn
  | Err value => Err_map value fn
  end.

Definition flatMap {TOk TErr UOk} (result : Result TOk TErr)
  (fn : TOk -> M (Result UOk TErr)) : M (Result UOk TErr) :=
  match result with
  | Ok value => Ok_flatMap value fn
  | Err value => Err_flatMap value fn
  end.

Definition orElse {TOk TErr} (result : Result TOk TErr)
  (fn : TErr -> M (Result TOk TErr)) : M (Result TOk TErr) :=
  match result with
  | Ok value => Ok_orElse value fn
  | Err value => Err_orElse value fn
  end.

Definition getOrElse {TOk TErr} (result : Result TOk TErr) (fallback : TOk)
  : TOk :=
  match result with
  | Ok value => Ok_getOrElse value fallback
  | Err value => Err_getOrElse value fallback
  end.
End Methods.

(** *** matchResult

    The casts [(result as Ok<TOk, TErr>)] and [(result as Err<TOk, TErr>)]
    are erased by the compiler: each branch reads the field [value] of the
    object it was given, whatever its class.  The handlers therefore
    receive a run-time value, of the one type [Val] of run-time values,
    and the result is a [Result Val Val]. *)
Section Match.
Context {World Exn Val T : Type}.
Local Abbreviation M := (Eff.M World Exn).

(** The argument [match], an object with the two handlers [Ok] and [Err]. *)
Record Match : Type := {
  match_Ok : Val -> M T;
  match_Err : Val -> M T
}.

(** [result.value]: both classes declare the field. *)
Definition value (result : Result Val Val) : Val :=
  match result with
  | Ok v => v
  | Err v => v
  end.

Definition matchResult (match_ : Match) (result : Result Val Val) : M T :=
  if isOk result
  then match_Ok match_ (value result)
  else match_Err match_ (value result).
End Match.
Arguments Match : clear implicits.

End Result.

(** ** The head of a list, squared *)

Module Head.
Import Maybe.

(** Numbers of the scenario: the integers that a double holds exactly,
    and [NaN]. *)
Inductive JsNumber : Type :=
| NaN
| Num (z : Z).

(** [ToNumber] on a possibly absent number: [undefined] is [NaN] and
    [null] is [0]. *)
Definition toNumber (x : Nullable JsNumber) : JsNumber :=
  match x with
  | JsUndefined => NaN
  | JsNull => Num 0
  | NonNull n => n
  end.

(** [a * b] on numbers; exact as long as the product is a safe integer. *)
Definition mul (a b : JsNumber) : JsNumber :=
  match a, b with
  | Num x, Num y => Num (x * y)
  | _, _ => NaN
  end.

(** [list[i]]: the element, or [undefined] past the end. *)
Definition index {T} (list : list T) (i : nat) : Nullable T :=
  match nth_error list i with
  | Some x => NonNull x
  | None => JsUndefined
  end.

(** [const safeHead = (list: number[]) => fromNullable(list[0])] *)
Definition safeHead (list : list JsNumber) : Maybe (Nullable JsNumber) :=
  fromNullable (index list 0).

(** The callback [x => x * x]; its argument is what the container holds. *)
Definition square (x : Nullable JsNumber) : Nullable JsNumber :=
  NonNull (mul (toNumber x) (toNumber x)).

(** [safeHead(list).map(square).getOrElse(0)] *)
Definition safeHeadSquare {World Exn} (list : list JsNumber)
  : Eff.M World Exn (Nullable JsNumber) :=
  m <- Maybe.map (safeHead list) (pure square) ;;
  ret (Maybe.getOrElse m (NonNull (Num 0))).

End Head.

(** ** The head of a list, squared, without the container *)

Module UnsafeHead.
Import Maybe Head.




End UnsafeHead.

(** ** The language of a greeting *)

Module FilterableList.
Import Maybe.

(** The exception of a property read on [undefined] or [null]. *)
Inductive JsError : Type :=
| TypeError.

(** An object of the table: its own properties, all strings, by name.
    Properties inherited from [Object.prototype] are not modelled; the
    scenario reads [text] and [language] only. *)
Definition Obj : Type := list (string * string).

(** [object[prop]] on an object: the property, or [undefined]. *)
Fixpoint get (object : Obj) (prop : string) : Nullable string :=
  match object with
  | [] => JsUndefined
  | (name, v) :: rest => if String.eqb name prop then NonNull v else get rest prop
  end.

(** [a === b] where [b] is a string: no coercion. *)
Definition strict_eq_string (a : Nullable string) (b : string) : bool :=
  match a with
  | NonNull s => String.eqb s b
  | JsNull | JsUndefined => false
  end.

(** [list.find(pred)]: the first element that satisfies [pred], or
    [undefined]. *)
Definition find {T} (pred : T -> bool) (list : list T) : Nullable T :=
  match List.find pred list with
  | Some x => NonNull x
  | None => JsUndefined
  end.

(** [const items = [...]] *)
Definition items : list Obj :=
  [ [("text", "Hello World"); ("language", "English")];
    [("text", "Bonjour monde!"); ("language", "French")];
    [("text", "Hallo Wereld!")];
    [("text", "Hola Mundo")] ]%string.

Section Lookup.
Context {World : Type}.
Local Abbreviation M := (Eff.M World JsError).

(** [object[prop]] on what may be [undefined] or [null]: reading a
    property of either throws a [TypeError]. *)
Definition member (object : Nullable Obj) (prop : string)
  : M (Nullable string) :=
  match object with
  | NonNull o => ret (get o prop)
  | JsNull | JsUndefined => throw TypeError
  end.

(** [const getProp = (prop) => (object) => fromNullable(object[prop])] *)
Definition getProp (prop : string) (object : Nullable Obj)
  : M (Maybe (Nullable string)) :=
  v <- member object prop ;; ret (fromNullable v).

(** [findLanguage], over the table it closes on:
    [fromNullable(items.find(item => item.text === text))
       .flatMap(getProp('language')).getOrElse('Unknown')] *)
Definition findLanguage_in (items : list Obj) (text : string)
  : M (Nullable string) :=
  m <- Maybe.flatMap
         (fromNullable
            (find (fun item => strict_eq_string (get item "text") text) items))
         (getProp "language") ;;
  ret (Maybe.getOrElse m (NonNull "Unknown"%string)).

Definition findLanguage (text : string) : M (Nullable string) :=
  findLanguage_in items text.
End Lookup.

End FilterableList.

(** ** Observers used to state the properties *)

Module Observe.

(** Whether a computation, run in world [w], ends with an exception. *)
Definition throws {World Exn A} (c : Eff.M World Exn A) (w : World) : bool :=
  match c w with
  | (Throw _, _) => true
  | (Normal _, _) => false
  end.

End Observe.

(** * Properties *)

Import Maybe Result.

(** ** Laws of the effect monad *)

Section EffLaws.
Context {World Exn : Type}.
Local Abbreviation M := (Eff.M World Exn).

Lemma bind_ret_l {A B} (a : A) (k : A -> M B) (w : World) :
  bind (ret a) k w = k a w.
Proof. reflexivity. Qed.

Lemma bind_ret_r {A} (c : M A) (w : World) :
  bind c ret w = c w.
Proof.
  unfold bind, ret. destruct (c w) as [[a|e] w']; reflexivity.
Qed.

Lemma bind_assoc {A B C} (c : M A) (k : A -> M B) (h : B -> M C) (w : World) :
  bind (bind c k) h w = bind c (fun a => bind (k a) h) w.
Proof.
  unfold bind. destruct (c w) as [[a|e] w']; reflexivity.
Qed.

Lemma bind_throw {A B} (e : Exn) (k : A -> M B) (w : World) :
  bind (throw e) k w = (Throw e, w).
Proof. reflexivity. Qed.

Lemma bind_ext {A B} (c : M A) (k k' : A -> M B) (w : World) :
  (forall a w', k a w' = k' a w') -> bind c k w = bind c k' w.
Proof.
  intros Hk. unfold bind. destruct (c w) as [[a|e] w']; [apply Hk|reflexivity].
Qed.

End EffLaws.

(** ** Chaining with callbacks that have effects *)

Section Chaining.
Context {World Exn : Type}.
Local Abbreviation M := (Eff.M World Exn).

(** [map] on [Just] calls [fn] once, on the held value, and wraps what it
    returns; an exception of [fn] is the exception of [map]. *)
Lemma Maybe_map_Just {A B} (v : A) (fn : A -> M B) (w : World) :
  Maybe.map (Just v) fn w =
  match fn v w with
  | (Normal b, w') => (Normal (Just b), w')
  | (Throw e, w') => (Throw e, w')
  end.
Proof. reflexivity. Qed.

Lemma Result_map_Ok {TOk TErr UOk} (v : TOk) (fn : TOk -> M UOk) (w : World) :
  Result.map (Ok v : Result TOk TErr) fn w =
  match fn v w with
  | (Normal u, w') => (Normal (Ok u), w')
  | (Throw e, w') => (Throw e, w')
  end.
Proof. reflexivity. Qed.

Lemma Maybe_flatMap_assoc_eff {A B C} (c : Maybe A)
  (f : A -> M (Maybe B)) (g : B -> M (Maybe C)) (w : World) :
  (c' <- Maybe.flatMap c f ;; Maybe.flatMap c' g) w =
  Maybe.flatMap c (fun x => c' <- f x ;; Maybe.flatMap c' g) w.
Proof. destruct c; reflexivity. Qed.

Lemma Result_flatMap_assoc_eff {TOk TErr UOk VOk} (c : Result TOk TErr)
  (f : TOk -> M (Result UOk TErr)) (g : UOk -> M (Result VOk TErr))
  (w : World) :
  (c' <- Result.flatMap c f ;; Result.flatMap c' g) w =
  Result.flatMap c (fun x => c' <- f x ;; Result.flatMap c' g) w.
Proof. destruct c; reflexivity. Qed.

End Chaining.

(** ** The conversion [fromNullable] *)

(** C1.  The claim: a value that is neither [null] nor [undefined] is
    converted to a [Just] holding it, and [null] and [undefined] are
    converted to [Nothing].  The code tests the other way round: a real
    value becomes [Nothing], and each of [null] and [undefined] becomes a
    [Just] that holds it.  So [fromNullable(5)] answers [false] to
    [isJust()] and [0] to [getOrElse(0)], and [fromNullable(undefined)]
    answers [true] and [undefined]. *)
Theorem fromNullable_inverted_test :
  (forall (T : Type) (v : T), fromNullable (NonNull v) = Nothing) /\
  (forall T : Type, fromNullable (@JsNull T) = Just JsNull) /\
  (forall T : Type, fromNullable (@JsUndefined T) = Just JsUndefined) /\
  (isJust (fromNullable (NonNull 5%Z)) = false /\
   Maybe.getOrElse (fromNullable (NonNull 5%Z)) (NonNull 0%Z) = NonNull 0%Z) /\
  (isJust (fromNullable (@JsUndefined Z)) = true /\
   Maybe.getOrElse (fromNullable JsUndefined) (NonNull 0%Z) = JsUndefined).
Proof. repeat split. Qed.

(** C10.  The claim: [fromNullable(null)] and [fromNullable(undefined)]
    cannot be told apart.  In the code both are [Just] containers, each
    holding the value it was made from, so [isJust()] agrees on them but
    [getOrElse(d)] returns [null] from the first and [undefined] from the
    second, for every [d]. *)
Theorem fromNullable_null_undefined_told_apart (T : Type) :
  isJust (fromNullable (@JsNull T)) = isJust (fromNullable (@JsUndefined T)) /\
  forall d : Nullable T,
    Maybe.getOrElse (fromNullable JsNull) d = JsNull /\
    Maybe.getOrElse (fromNullable JsUndefined) d = JsUndefined /\
    Maybe.getOrElse (fromNullable JsNull) d
    <> Maybe.getOrElse (fromNullable JsUndefined) d.
Proof.
  split; [reflexivity|]. intros d. repeat split. cbn. discriminate.
Qed.

(** C4.  The claim: [safeHead(list).map(x => x * x).getOrElse(0)] is [16]
    for [list = [4]] and [0] for [list = []].  On the code it is [0] for
    [[4]] (the head [4] is converted to [Nothing]) and [NaN] for [[]] (the
    absent head [undefined] is wrapped in a [Just] and squared). *)
Theorem safeHeadSquare_on_code (World Exn : Type) (w : World) :
  @Head.safeHeadSquare World Exn [Head.Num 4] w
  = (Normal (NonNull (Head.Num 0)), w) /\
  @Head.safeHeadSquare World Exn [] w
  = (Normal (NonNull Head.NaN), w).
Proof. split; reflexivity. Qed.

(** ** The discriminator [isOk] and [matchResult] *)

(** C2.  The claim: [isOk()] is [true] on [Ok] and [false] on [Err].  The
    code returns [true] from both classes, whatever the payload. *)
Theorem isOk_true_on_both_classes (TOk TErr : Type) :
  (forall v : TOk, isOk (Ok v : Result TOk TErr) = true) /\
  (forall e : TErr, isOk (Err e : Result TOk TErr) = true).
Proof. split; reflexivity. Qed.

(** C3.  The claim: [matchResult] calls the [Ok] handler exactly once, with
    the payload, on an [Ok], and the [Err] handler exactly once, with the
    error, on an [Err].  On an [Ok] the code does so.  On an [Err] the test
    [result.isOk()] is [true] as well, and the code runs the [Ok] handler
    on the error and never the [Err] handler: with two spies the journal
    of calls is the one call of [Ok]. *)
Theorem matchResult_Err_runs_Ok_handler
  (World Exn Val T : Type) (match_ : Match World Exn Val T) :
  (forall (v : Val) (w : World),
      matchResult match_ (Ok v) w = match_Ok match_ v w) /\
  (forall (e : Val) (w : World),
      matchResult match_ (Err e) w = match_Ok match_ e w) /\
  (forall (onOk onErr : Val -> T) (v : Val),
      matchResult
        {| match_Ok := @spy Exn _ _ "Ok" onOk;
           match_Err := spy "Err" onErr |} (Ok v) []
      = (Normal (onOk v), [("Ok"%string, v)])) /\
  (forall (onOk onErr : Val -> T) (e : Val),
      matchResult
        {| match_Ok := @spy Exn _ _ "Ok" onOk;
           match_Err := spy "Err" onErr |} (Err e) []
      = (Normal (onOk e), [("Ok"%string, e)])).
Proof. repeat split. Qed.

(** ** [map] *)

(** C5.  For every function [fn] without effects, [Just(v).map(fn)] is
    [Just(fn(v))]; [Nothing.map(fn)] is [Nothing] and does not call [fn]:
    whatever [fn] would do, the world is left as it was, and a spy records
    no call. *)
Theorem Maybe_map_laws (World Exn A B : Type) :
  (forall (fn : A -> B) (v : A) (w : World),
      Maybe.map (Just v) (@pure World Exn _ _ fn) w
      = (Normal (Just (fn v)), w)) /\
  (forall (fn : A -> Eff.M World Exn B) (w : World),
      Maybe.map Nothing fn w = (Normal Nothing, w)) /\
  (forall (fn : A -> B) (journal : list (string * A)),
      Maybe.map Nothing (@spy Exn _ _ "fn" fn) journal
      = (Normal Nothing, journal)).
Proof. repeat split. Qed.

(** C9.  For every error [e] and every function [fn], [Err(e).map(fn)] and
    [Err(e).flatMap(fn)] are an [Err] that carries [e]; [fn] is not called:
    whatever it would do, the world is left as it was, and a spy records no
    call. *)
Theorem Err_map_flatMap_keep_error (World Exn TOk TErr UOk : Type) (e : TErr) :
  (forall (fn : TOk -> Eff.M World Exn UOk) (w : World),
      Result.map (Err e) fn w = (Normal (Err e), w)) /\
  (forall (fn : TOk -> Eff.M World Exn (Result UOk TErr)) (w : World),
      Result.flatMap (Err e) fn w = (Normal (Err e), w)) /\
  (forall (fn : TOk -> UOk) (journal : list (string * TOk)),
      Result.map (Err e) (@spy Exn _ _ "fn" fn) journal
      = (Normal (Err e), journal)) /\
  (forall (fn : TOk -> Result UOk TErr) (journal : list (string * TOk)),
      Result.flatMap (Err e) (@spy Exn _ _ "fn" fn) journal
      = (Normal (Err e), journal)).
Proof. repeat split. Qed.

(** ** [flatMap] *)

(** C6.  Chaining is associative on both containers: for every container
    [c] and functions [f] and [g] without effects,
    [c.flatMap(f).flatMap(g)] and [c.flatMap(x => f(x).flatMap(g))] end
    with the same container (and leave the same world). *)
Theorem flatMap_assoc (World Exn : Type) :
  (forall (A B C : Type) (c : Maybe A) (f : A -> Maybe B) (g : B -> Maybe C)
          (w : World),
      (c' <- Maybe.flatMap c (@pure World Exn _ _ f) ;;
       Maybe.flatMap c' (pure g)) w
      = Maybe.flatMap c
          (fun x => c' <- pure f x ;; Maybe.flatMap c' (pure g)) w) /\
  (forall (TOk TErr UOk VOk : Type) (c : Result TOk TErr)
          (f : TOk -> Result UOk TErr) (g : UOk -> Result VOk TErr)
          (w : World),
      (c' <- Result.flatMap c (@pure World Exn _ _ f) ;;
       Result.flatMap c' (pure g)) w
      = Result.flatMap c
          (fun x => c' <- pure f x ;; Result.flatMap c' (pure g)) w).
Proof.
  split; intros.
  - apply Maybe_flatMap_assoc_eff.
  - apply Result_flatMap_assoc_eff.
Qed.

(** ** [orElse] and [getOrElse] *)

(** C7.  [Just(v).orElse(supplier)] and [Ok(v).orElse(fn)] return the
    receiver and do not call their argument (the world is left as it was; a
    counting stub stays at its count, a spy records no call);
    [Nothing.orElse(supplier)] is the call [supplier()] and
    [Err(e).orElse(fn)] is the call [fn(e)]. *)
Theorem orElse_short_circuit (World Exn : Type) :
  (forall (A : Type) (v : A)
          (supplier : unit -> Eff.M World Exn (Maybe A)) (w : World),
      Maybe.orElse (Just v) supplier w = (Normal (Just v), w)) /\
  (forall (TOk TErr : Type) (v : TOk)
          (fn : TErr -> Eff.M World Exn (Result TOk TErr)) (w : World),
      Result.orElse (Ok v) fn w = (Normal (Ok v), w)) /\
  (forall (A : Type)
          (supplier : unit -> Eff.M World Exn (Maybe A)) (w : World),
      Maybe.orElse Nothing supplier w = supplier tt w) /\
  (forall (TOk TErr : Type) (e : TErr)
          (fn : TErr -> Eff.M World Exn (Result TOk TErr)) (w : World),
      Result.orElse (Err e) fn w = fn e w) /\
  (forall (A : Type) (v : A) (other : Maybe A) (n : nat),
      Maybe.orElse (Just v) (@counting Exn _ other) n
      = (Normal (Just v), n)) /\
  (forall (TOk TErr : Type) (v : TOk) (fn : TErr -> Result TOk TErr)
          (journal : list (string * TErr)),
      Result.orElse (Ok v) (@spy Exn _ _ "fn" fn) journal
      = (Normal (Ok v), journal)).
Proof. repeat split. Qed.

(** C8.  On both containers [getOrElse(d)] returns the held value from the
    good variant ([Just(v)], [Ok(v)]) and [d] from the bad one ([Nothing],
    [Err(e)], whatever the error [e]). *)
Theorem getOrElse_value_or_fallback :
  (forall (A : Type) (v d : A), Maybe.getOrElse (Just v) d = v) /\
  (forall (A : Type) (d : A), Maybe.getOrElse Nothing d = d) /\
  (forall (TOk TErr : Type) (v d : TOk),
      Result.getOrElse (Ok v : Result TOk TErr) d = v) /\
  (forall (TOk TErr : Type) (e : TErr) (d : TOk),
      Result.getOrElse (Err e) d = d).
Proof. repeat split. Qed.

(** * Further properties of the containers *)

Import Observe.

(** ** Unit and functor laws *)

(** X1.  [Just.of] is a unit of [flatMap] on [Maybe]:
    [Just.of(v).flatMap(fn)] is the call [fn(v)], for every [fn], and
    [m.flatMap(Just.of)] is [m]. *)
Theorem Maybe_flatMap_unit (World Exn A : Type) :
  (forall (B : Type) (v : A) (fn : A -> Eff.M World Exn (Maybe B)) (w : World),
      Maybe.flatMap (Just_of v) fn w = fn v w) /\
  (forall (m : Maybe A) (w : World),
      Maybe.flatMap m (@pure World Exn _ _ Just_of) w = (Normal m, w)).
Proof.
  split; [reflexivity|]. intros [v|] w; reflexivity.
Qed.

(** X2.  [Ok.of] is a unit of [flatMap] on [Result]:
    [Ok.of(v).flatMap(fn)] is the call [fn(v)], for every [fn], and
    [r.flatMap(Ok.of)] is [r], an [Err] included. *)
Theorem Result_flatMap_unit (World Exn TOk TErr : Type) :
  (forall (UOk : Type) (v : TOk)
          (fn : TOk -> Eff.M World Exn (Result UOk TErr)) (w : World),
      Result.flatMap (Ok_of v) fn w = fn v w) /\
  (forall (r : Result TOk TErr) (w : World),
      Result.flatMap r (@pure World Exn _ _ Ok_of) w = (Normal r, w)).
Proof.
  split; [reflexivity|]. intros [v|e] w; reflexivity.
Qed.

(** X3.  [map] on [Maybe] is a functor: [m.map(x => x)] is [m], and
    [m.map(f).map(g)] runs as [m.map(x => g(f(x)))], also when [f] and [g]
    have effects or throw. *)
Theorem Maybe_map_functor (World Exn A : Type) :
  (forall (m : Maybe A) (w : World),
      Maybe.map m (@pure World Exn _ _ (fun x => x)) w = (Normal m, w)) /\
  (forall (B C : Type) (m : Maybe A) (f : A -> Eff.M World Exn B)
          (g : B -> Eff.M World Exn C) (w : World),
      (m' <- Maybe.map m f ;; Maybe.map m' g) w
      = Maybe.map m (fun x => y <- f x ;; g y) w).
Proof.
  split.
  - intros [v|] w; reflexivity.
  - intros B C [v|] f g w; [|reflexivity].
    cbv [Maybe.map Just_map Just_of bind ret].
    destruct (f v w) as [[b|e] w']; reflexivity.
Qed.

(** X4.  [map] on [Result] is a functor: [r.map(x => x)] is [r], and
    [r.map(f).map(g)] runs as [r.map(x => g(f(x)))], also when [f] and [g]
    have effects or throw. *)
Theorem Result_map_functor (World Exn TOk TErr : Type) :
  (forall (r : Result TOk TErr) (w : World),
      Result.map r (@pure World Exn _ _ (fun x => x)) w = (Normal r, w)) /\
  (forall (UOk VOk : Type) (r : Result TOk TErr)
          (f : TOk -> Eff.M World Exn UOk) (g : UOk -> Eff.M World Exn VOk)
          (w : World),
      (r' <- Result.map r f ;; Result.map r' g) w
      = Result.map r (fun x => y <- f x ;; g y) w).
Proof.
  split.
  - intros [v|e] w; reflexivity.
  - intros UOk VOk [v|e] f g w; [|reflexivity].
    cbv [Result.map Ok_map Ok_of bind ret].
    destruct (f v w) as [[b|x] w']; reflexivity.
Qed.

(** X5.  On both containers [map] is [flatMap] followed by the
    constructor: [m.map(fn)] runs as [m.flatMap(x => Just.of(fn(x)))] and
    [r.map(fn)] as [r.flatMap(x => Ok.of(fn(x)))], for every [fn]. *)
Theorem map_is_flatMap_of (World Exn : Type) :
  (forall (A B : Type) (m : Maybe A) (fn : A -> Eff.M World Exn B) (w : World),
      Maybe.map m fn w
      = Maybe.flatMap m (fun x => y <- fn x ;; ret (Just_of y)) w) /\
  (forall (TOk TErr UOk : Type) (r : Result TOk TErr)
          (fn : TOk -> Eff.M World Exn UOk) (w : World),
      Result.map r fn w
      = Result.flatMap r (fun x => y <- fn x ;; ret (Ok_of y)) w).
Proof.
  split.
  - intros A B [v|] fn w; reflexivity.
  - intros TOk TErr UOk [v|e] fn w; reflexivity.
Qed.

(** ** Exceptions *)

(** X6.  The code of [Maybe] never throws by itself: [map] and [flatMap]
    throw exactly when the receiver is a [Just] and the callback throws on
    its value, and [orElse] exactly when the receiver is [Nothing] and the
    handler throws. *)
Theorem Maybe_throws_only_in_callback (World Exn A : Type) :
  (forall (B : Type) (m : Maybe A) (fn : A -> Eff.M World Exn B) (w : World),
      throws (Maybe.map m fn) w
      = match m with Just v => throws (fn v) w | Nothing => false end) /\
  (forall (B : Type) (m : Maybe A) (fn : A -> Eff.M World Exn (Maybe B))
          (w : World),
      throws (Maybe.flatMap m fn) w
      = match m with Just v => throws (fn v) w | Nothing => false end) /\
  (forall (m : Maybe A) (handler : unit -> Eff.M World Exn (Maybe A))
          (w : World),
      throws (Maybe.orElse m handler) w
      = match m with Just _ => false | Nothing => throws (handler tt) w end).
Proof.
  repeat split; intros; destruct m as [v|]; try reflexivity.
  cbv [throws Maybe.map Just_map Just_of bind ret].
  destruct (fn v w) as [[b|e] w']; reflexivity.
Qed.

(** X7.  The code of [Result] never throws by itself: [map] and [flatMap]
    throw exactly when the receiver is an [Ok] and the callback throws on
    its value, and [orElse] exactly when the receiver is an [Err] and the
    callback throws on its error. *)
Theorem Result_throws_only_in_callback (World Exn TOk TErr : Type) :
  (forall (UOk : Type) (r : Result TOk TErr) (fn : TOk -> Eff.M World Exn UOk)
          (w : World),
      throws (Result.map r fn) w
      = match r with Ok v => throws (fn v) w | Err _ => false end) /\
  (forall (UOk : Type) (r : Result TOk TErr)
          (fn : TOk -> Eff.M World Exn (Result UOk TErr)) (w : World),
      throws (Result.flatMap r fn) w
      = match r with Ok v => throws (fn v) w | Err _ => false end) /\
  (forall (r : Result TOk TErr)
          (fn : TErr -> Eff.M World Exn (Result TOk TErr)) (w : World),
      throws (Result.orElse r fn) w
      = match r with Ok _ => false | Err e => throws (fn e) w end).
Proof.
  repeat split; intros; destruct r as [v|x]; try reflexivity.
  cbv [throws Result.map Ok_map Ok_of bind ret].
  destruct (fn v w) as [[b|e] w']; reflexivity.
Qed.

(** ** Variants and fallbacks *)

(** X8.  [map] keeps the variant: whenever [m.map(fn)] returns, the
    container it returns answers [isJust()] as [m] does, whatever [fn]
    returned. *)
Theorem Maybe_map_keeps_isJust (World Exn A B : Type)
  (m : Maybe A) (fn : A -> Eff.M World Exn B) (w : World) :
  (m' <- Maybe.map m fn ;; ret (isJust m')) w
  = (_ <- Maybe.map m fn ;; ret (isJust m)) w.
Proof.
  destruct m as [v|]; [|reflexivity].
  cbv [Maybe.map Just_map Just_of bind ret].
  destruct (fn v w) as [[b|e] w']; reflexivity.
Qed.

(** X9.  [getOrElse] commutes with [map]: for a function [f] without
    effects, [m.map(f).getOrElse(f(d))] is [f(m.getOrElse(d))], on [Maybe]
    and on [Result]. *)
Theorem getOrElse_after_map (World Exn A B : Type) (f : A -> B) (d : A)
  (w : World) :
  (forall m : Maybe A,
      (m' <- Maybe.map m (@pure World Exn _ _ f) ;;
       ret (Maybe.getOrElse m' (f d))) w
      = (Normal (f (Maybe.getOrElse m d)), w)) /\
  (forall (TErr : Type) (r : Result A TErr),
      (r' <- Result.map r (@pure World Exn _ _ f) ;;
       ret (Result.getOrElse r' (f d))) w
      = (Normal (f (Result.getOrElse r d)), w)).
Proof.
  split; [intros [v|] | intros TErr [v|e]]; reflexivity.
Qed.

(** X10.  [orElse] on [Maybe] is a monoid with unit [Nothing]:
    [m.orElse(() => Nothing.of())] is [m], [Nothing.of().orElse(() => m)]
    is [m], and [m.orElse(h1).orElse(h2)] runs as
    [m.orElse(() => h1().orElse(h2))] for all handlers. *)
Theorem Maybe_orElse_monoid (World Exn A : Type) :
  (forall (m : Maybe A) (w : World),
      Maybe.orElse m (fun _ => @ret World Exn _ Nothing_of) w
      = (Normal m, w)) /\
  (forall (m : Maybe A) (w : World),
      Maybe.orElse Nothing_of (fun _ => @ret World Exn _ m) w
      = (Normal m, w)) /\
  (forall (m : Maybe A) (h1 h2 : unit -> Eff.M World Exn (Maybe A))
          (w : World),
      (m' <- Maybe.orElse m h1 ;; Maybe.orElse m' h2) w
      = Maybe.orElse m (fun _ => m' <- h1 tt ;; Maybe.orElse m' h2) w).
Proof.
  repeat split; intros; destruct m; reflexivity.
Qed.

(** X11.  [orElse] on [Result] chains recoveries: [r.orElse(Err.of)] is
    [r], and [r.orElse(f).orElse(g)] runs as
    [r.orElse(e => f(e).orElse(g))] for all recoveries [f] and [g]. *)
Theorem Result_orElse_chain (World Exn TOk TErr : Type) :
  (forall (r : Result TOk TErr) (w : World),
      Result.orElse r (@pure World Exn _ _ Err_of) w = (Normal r, w)) /\
  (forall (r : Result TOk TErr)
          (f g : TErr -> Eff.M World Exn (Result TOk TErr)) (w : World),
      (r' <- Result.orElse r f ;; Result.orElse r' g) w
      = Result.orElse r (fun e => r' <- f e ;; Result.orElse r' g) w).
Proof.
  split; intros; destruct r; reflexivity.
Qed.

(** X12.  A fallback container that holds [d] makes the later fallback
    value useless: [m.orElse(() => Just.of(d)).getOrElse(d')] is
    [m.getOrElse(d)], and [r.orElse(e => Ok.of(d)).getOrElse(d')] is
    [r.getOrElse(d)]. *)
Theorem orElse_value_then_getOrElse (World Exn A : Type) (d d' : A)
  (w : World) :
  (forall m : Maybe A,
      (m' <- Maybe.orElse m (fun _ => @ret World Exn _ (Just_of d)) ;;
       ret (Maybe.getOrElse m' d')) w
      = (Normal (Maybe.getOrElse m d), w)) /\
  (forall (TErr : Type) (r : Result A TErr),
      (r' <- Result.orElse r (fun _ => @ret World Exn _ (Ok_of d)) ;;
       ret (Result.getOrElse r' d')) w
      = (Normal (Result.getOrElse r d), w)).
Proof.
  split; [intros [v|] | intros TErr [v|e]]; reflexivity.
Qed.

(** ** [fromNullable] and its callers *)

(** X13.  [fromNullable(v).getOrElse(d)] is a real value (neither [null]
    nor [undefined]) only when that value is the fallback [d]. *)
Theorem fromNullable_getOrElse_real_is_fallback (T : Type)
  (v d : Nullable T) (x : T) :
  Maybe.getOrElse (fromNullable v) d = NonNull x -> d = NonNull x.
Proof.
  destruct v; cbn; intros H; try discriminate H; exact H.
Qed.

Lemma fromNullable_getOrElse_real_is_fallback_witness :
  Maybe.getOrElse (fromNullable (NonNull 5%Z)) (NonNull 0%Z) = NonNull 0%Z /\
  NonNull 0%Z = NonNull 0%Z.
Proof.
  split; [reflexivity|].
  apply (@fromNullable_getOrElse_real_is_fallback Z (NonNull 5%Z)
           (NonNull 0%Z) 0%Z).
  reflexivity.
Defined.

(** X14.  Converting twice is converting once:
    [fromNullable(v).flatMap(fromNullable)] is [fromNullable(v)], for every
    [v]. *)
Theorem fromNullable_flatMap_fromNullable (World Exn T : Type)
  (v : Nullable T) (w : World) :
  Maybe.flatMap (fromNullable v) (@pure World Exn _ _ fromNullable) w
  = (Normal (fromNullable v), w).
Proof. destruct v; reflexivity. Qed.




(** [findLanguage] over any table: a text that some item carries gives
    ['Unknown'], whatever the item's language, and a text that no item
    carries ends in a [TypeError]. *)
Lemma findLanguage_in_Unknown_or_TypeError (World : Type)
  (items : list FilterableList.Obj) (text : string) (w : World) :
  FilterableList.findLanguage_in items text w
  = if existsb
         (fun item =>
            FilterableList.strict_eq_string
              (FilterableList.get item "text") text) items
    then (Normal (NonNull "Unknown"%string), w)
    else (Throw FilterableList.TypeError, w).
Proof.
  unfold FilterableList.findLanguage_in, FilterableList.find.
  induction items as [|item items IH]; [reflexivity|].
  cbn [List.find existsb].
  destruct (FilterableList.strict_eq_string
              (FilterableList.get item "text") text); [reflexivity|].
  exact IH.
Qed.

(** X17.  [findLanguage(text)] never returns a language: it returns
    ['Unknown'] when [text] is one of the four greetings of the table, and
    throws a [TypeError] for every other [text]. *)
Theorem findLanguage_never_finds (World : Type) (text : string) (w : World) :
  FilterableList.findLanguage text w
  = if existsb (String.eqb text)
         ["Hello World"; "Bonjour monde!"; "Hallo Wereld!"; "Hola Mundo"]%string
    then (Normal (NonNull "Unknown"%string), w)
    else (Throw FilterableList.TypeError, w).
Proof.
  unfold FilterableList.findLanguage.
  rewrite findLanguage_in_Unknown_or_TypeError.
  cbn [existsb FilterableList.items FilterableList.get
       FilterableList.strict_eq_string].
  change (String.eqb "text" "text") with true. cbv iota.
  rewrite !(String.eqb_sym text). reflexivity.
Qed.
